(** * harassment-manager: shared data model and global stylesheet

    A shallow embedding of [src/common-types.ts] (the request and response
    shapes, the [BuildReportStep] enumeration and the one runtime function,
    [isFirebaseCredential]) and of [src/styles.scss] (the rules of the global
    stylesheet), with the properties the specification states about them. *)

From Stdlib Require Import Ascii ZArith QArith Lia Lqa.
From stdpp Require Import base option strings list gmap pretty.

Local Open Scope string_scope.
Local Set Warnings "-register-all".

(** ** JavaScript values and property reads

    The part of the JavaScript value space that [isFirebaseCredential] can
    observe.  An object is a finite map from property names to property
    slots plus an optional prototype; a slot is a data property or an
    accessor whose getter runs against the state of the realm. *)

Module JS.

Inductive exn : Type :=
| TypeError (msg : string)
| Thrown (msg : string).

Section Values.

(** The mutable state of the realm that running code may read and write. *)
Context {W : Type}.

(** A computation reads and writes the realm and either completes with a
    value or throws. *)
Definition M (A : Type) : Type := W -> (A + exn) * W.

Definition ret {A : Type} (a : A) : M A := fun w => (inl a, w).

Definition throw {A : Type} (e : exn) : M A := fun w => (inr e, w).

Definition bind {A B : Type} (c : M A) (k : A -> M B) : M B :=
  fun w =>
    match c w with
    | (inl a, w') => k a w'
    | (inr e, w') => (inr e, w')
    end.

Inductive slot (V : Type) : Type :=
| Data (v : V)
| Accessor (getter : M V).

#[local] Arguments Data {V} v.
#[local] Arguments Accessor {V} getter.

Inductive value : Type :=
| Undefined
| Null
| Bool (b : bool)
| Number (n : Z)
| Str (s : string)
| Object (props : gmap string (slot value)) (proto : option value).

Definition is_object (v : value) : bool :=
  match v with
  | Object _ _ => true
  | _ => false
  end.

(** The property slot a read of [k] on [v] resolves to: the object's own
    slot, else the one found along the prototype chain.  Primitive values
    have no slot of their own (their built-in prototypes are taken to be
    unmodified). *)
Fixpoint find_slot (v : value) (k : string) : option (slot value) :=
  match v with
  | Object props proto =>
      match props !! k with
      | Some s => Some s
      | None =>
          match proto with
          | Some p => find_slot p k
          | None => None
          end
      end
  | _ => None
  end.

(** [v.k]: reading a property of [undefined] or [null] throws a TypeError;
    a missing property reads as [undefined]; a data property reads as its
    value; an accessor runs its getter. *)
Definition get (v : value) (k : string) : M value :=
  match v with
  | Undefined => throw (TypeError "Cannot read properties of undefined")
  | Null => throw (TypeError "Cannot read properties of null")
  | _ =>
      match find_slot v k with
      | None => ret Undefined
      | Some (Data x) => ret x
      | Some (Accessor g) => g
      end
  end.

Definition is_undefined (v : value) : bool :=
  match v with
  | Undefined => true
  | _ => false
  end.

(** [v !== undefined]: strict inequality against [undefined] holds for every
    value of another type, [null] included. *)
Definition strict_neq_undefined (v : value) : bool := negb (is_undefined v).

End Values.

Arguments value : clear implicits.
Arguments slot : clear implicits.
Arguments M : clear implicits.
Arguments Data {W V} v.
Arguments Accessor {W V} getter.

Declare Scope js_scope.
Delimit Scope js_scope with js.
Notation "x <- c ;; k" := (bind c (fun x => k))
  (at level 100, c at next level, right associativity) : js_scope.

End JS.

(** ** [common-types.ts] *)

Module CommonTypes.

Import JS.
Local Open Scope js_scope.

Section Credential.

Context {W : Type}.

(** [isFirebaseCredential]: reads [credential.signInMethod] and compares it
    with [undefined]. *)
Definition isFirebaseCredential (credential : value W) : M W bool :=
  (signInMethod <- get credential "signInMethod" ;;
   ret (strict_neq_undefined signInMethod))%js.

(** The value a read of [signInMethod] yields when the slot is a data
    property or is missing. *)
Definition signInMethod_of (v : value W) : value W :=
  match find_slot v "signInMethod" with
  | Some (Data x) => x
  | _ => Undefined
  end.

(** An object whose [signInMethod], when there is one, is a data property:
    the case for instances of the credential classes and for objects read
    from JSON. *)
Definition plain_credential (v : value W) : bool :=
  is_object v &&
  match find_slot v "signInMethod" with
  | Some (Accessor _) => false
  | _ => true
  end.

(** Modelled from the spec: the two members of the union the function is
    declared on ([firebase.auth.OAuthCredential] and [Credentials] are
    declared by the firebase and google-auth-library packages).  The
    OAuth-style shape carries a sign-in-method field that is present and
    not undefined; the service-credential shape has no such field. *)
Definition oauth_shaped (v : value W) : bool :=
  is_object v &&
  match find_slot v "signInMethod" with
  | Some (Data x) => negb (is_undefined x)
  | _ => false
  end.

Definition service_shaped (v : value W) : bool :=
  is_object v &&
  match find_slot v "signInMethod" with
  | None => true
  | Some _ => false
  end.

Definition conforming (v : value W) : bool :=
  oauth_shaped v || service_shaped v.

End Credential.

(** *** Numeric enumerations

    A TypeScript numeric enum gives each member without an initializer the
    value of the previous member plus one, starting from zero. *)

Fixpoint number_members {A : Type} (next : Z) (ms : list (A * option Z))
  : list (A * Z) :=
  match ms with
  | [] => []
  | (m, init) :: ms' =>
      let v := default next init in
      (m, v) :: number_members (v + 1)%Z ms'
  end.

Fixpoint member_value {A : Type} `{EqDecision A} (m : A) (vs : list (A * Z))
  : option Z :=
  match vs with
  | [] => None
  | (m', v) :: vs' => if decide (m = m') then Some v else member_value m vs'
  end.

Fixpoint member_index {A : Type} `{EqDecision A} (m : A)
  (ms : list (A * option Z)) : option nat :=
  match ms with
  | [] => None
  | (m', _) :: ms' =>
      if decide (m = m') then Some 0%nat else S <$> member_index m ms'
  end.

Inductive BuildReportStep : Type :=
| NONE
| ADD_COMMENTS
| EDIT_DETAILS
| TAKE_ACTION
| COMPLETE.

#[global] Instance BuildReportStep_eq_dec : EqDecision BuildReportStep.
Proof. solve_decision. Defined.

(** The members of [enum BuildReportStep] as declared: in this order and
    without initializers. *)
Definition BuildReportStep_members : list (BuildReportStep * option Z) :=
  [ (NONE, None);
    (ADD_COMMENTS, None);
    (EDIT_DETAILS, None);
    (TAKE_ACTION, None);
    (COMPLETE, None) ].

(** The number a step compiles to.  Every step is declared, so the default
    is never taken. *)
Definition ordinal (s : BuildReportStep) : Z :=
  default 0%Z (member_value s (number_members 0%Z BuildReportStep_members)).

(** The position of a step in the declaration. *)
Definition declaration_index (s : BuildReportStep) : nat :=
  default 0%nat (member_index s BuildReportStep_members).

Inductive Platform : Type :=
| TWITTER.

(** [enum Platform] is a string enum: the member's value is its literal. *)
Definition Platform_value (p : Platform) : string :=
  match p with
  | TWITTER => "twitter"
  end.

(** *** Request and response shapes

    Each interface is a record in a module of its name, so that fields keep
    the names they have in the source.  An optional field [f?: T] is an
    [option T]; [number] fields hold counts, ids and offsets and are
    integers here; a [Date] is its time value.  The credential types of the
    firebase package are parameters. *)

Module SocialMediaItem.
Record t : Type := {
  id_str : string;
  text : string;
  date : Z;
  url : option string;
  authorName : option string;
  authorScreenName : option string;
  authorUrl : option string;
  authorAvatarUrl : option string;
  hasImage : option bool;
  verified : option bool
}.
End SocialMediaItem.

Definition Indices : Type := Z * Z.

Module Symbols.
Record t : Type := {
  indices : Indices;
  text : string
}.
End Symbols.

Module TweetUserMention.
Record t : Type := {
  id : option Z;
  id_str : option string;
  indices : Indices;
  name : option string;
  screen_name : string
}.
End TweetUserMention.

Module TweetMedia.
Record t : Type := {
  id_str : option string;
  media_url : string;
  type : string;
  indices : Indices
}.
End TweetMedia.

Module TweetMediaDimensions.
Record t : Type := {
  h : Z;
  w : Z;
  resize : string
}.
End TweetMediaDimensions.

Module TweetMediaSizes.
Record t : Type := {
  large : TweetMediaDimensions.t;
  medium : TweetMediaDimensions.t;
  small : TweetMediaDimensions.t;
  thumb : TweetMediaDimensions.t
}.
End TweetMediaSizes.

Module TweetUrl.
Record t : Type := {
  display_url : option string;
  expanded_url : option string;
  indices : Indices;
  url : string
}.
End TweetUrl.

Module TweetHashtag.
Record t : Type := {
  text : string;
  indices : Indices
}.
End TweetHashtag.

Module TweetEntities.
Record t : Type := {
  hashtags : option (list TweetHashtag.t);
  media : option (list TweetMedia.t);
  symbols : option (list Symbols.t);
  urls : option (list TweetUrl.t);
  user_mentions : option (list TweetUserMention.t)
}.
End TweetEntities.

Module ExtendedTweet.
Record t : Type := {
  full_text : string;
  display_text_range : list Z;
  entities : TweetEntities.t
}.
End ExtendedTweet.

Module TwitterUser.
Record t : Type := {
  id_str : string;
  screen_name : string;
  created_at : option string;
  description : option string;
  favorite_count : option Z;
  followers_count : option Z;
  friends_count : option Z;
  id : option Z;
  name : option string;
  profile_image_url : option string;
  statuses_count : option Z;
  verified : option bool
}.
End TwitterUser.

Module TweetObject.
Inductive t : Type := {
  created_at : option string;
  id_str : string;
  text : string;
  user : option TwitterUser.t;
  entities : option TweetEntities.t;
  display_text_range : option (list Z);
  truncated : option bool;
  extended_tweet : option ExtendedTweet.t;
  extended_entities : option TweetEntities.t;
  favorite_count : option Z;
  favorited : option bool;
  in_reply_to_status_id : option string;
  lang : option string;
  reply_count : option Z;
  retweet_count : option Z;
  retweeted_status : option t;
  source : option string
}.
End TweetObject.

(** [Tweet = TweetObject & SocialMediaItem]: one value with the fields of
    both; [id_str] and [text] are declared by both with the same type and
    are the same field. *)
Module Tweet.
Record t : Type := {
  tweetObject : TweetObject.t;
  date : Z;
  url : option string;
  authorName : option string;
  authorScreenName : option string;
  authorUrl : option string;
  authorAvatarUrl : option string;
  hasImage : option bool;
  verified : option bool
}.

Definition socialMediaItem (tweet : t) : SocialMediaItem.t :=
  {| SocialMediaItem.id_str := TweetObject.id_str (tweetObject tweet);
     SocialMediaItem.text := TweetObject.text (tweetObject tweet);
     SocialMediaItem.date := date tweet;
     SocialMediaItem.url := url tweet;
     SocialMediaItem.authorName := authorName tweet;
     SocialMediaItem.authorScreenName := authorScreenName tweet;
     SocialMediaItem.authorUrl := authorUrl tweet;
     SocialMediaItem.authorAvatarUrl := authorAvatarUrl tweet;
     SocialMediaItem.hasImage := hasImage tweet;
     SocialMediaItem.verified := verified tweet |}.
End Tweet.

Module GetTweetsRequest.
Record t (UserCredential : Type) : Type := {
  credentials : option UserCredential;
  nextPageToken : option string;
  fromDate : string;
  toDate : string
}.
Arguments credentials {UserCredential} _.
Arguments nextPageToken {UserCredential} _.
Arguments fromDate {UserCredential} _.
Arguments toDate {UserCredential} _.
End GetTweetsRequest.

Module GetTweetsResponse.
Record t : Type := {
  tweets : list Tweet.t;
  nextPageToken : option string
}.
End GetTweetsResponse.

Module BlockTwitterUsersRequest.
Record t (OAuthCredential : Type) : Type := {
  credential : OAuthCredential;
  users : list string
}.
End BlockTwitterUsersRequest.

Module BlockTwitterUsersResponse.
Record t : Type := {
  error : option string;
  failedScreennames : option (list string)
}.
End BlockTwitterUsersResponse.

Module MuteTwitterUsersRequest.
Record t (OAuthCredential : Type) : Type := {
  credential : OAuthCredential;
  users : list string
}.
End MuteTwitterUsersRequest.

Module MuteTwitterUsersResponse.
Record t : Type := {
  error : option string;
  failedScreennames : option (list string)
}.
End MuteTwitterUsersResponse.

Module HideRepliesTwitterRequest.
Record t (OAuthCredential : Type) : Type := {
  credential : OAuthCredential;
  tweetIds : list string
}.
End HideRepliesTwitterRequest.

Module HideRepliesTwitterResponse.
Record t : Type := {
  error : option string;
  numQuotaFailures : option Z;
  numOtherFailures : option Z
}.
End HideRepliesTwitterResponse.

Module TwitterApiRequestParams.
Record t : Type := {
  fromDate : string;
  toDate : string;
  maxResults : Z
}.
End TwitterApiRequestParams.

Module TwitterApiResponse.
Record t : Type := {
  next : string;
  requestParameters : TwitterApiRequestParams.t;
  results : list TweetObject.t
}.
End TwitterApiResponse.

Module CsvFileTemplate.
Record t : Type := {
  title : string;
  header : list string;
  bodyRows : list (list string)
}.
End CsvFileTemplate.

Module ClearReportRequest.
Record t : Type := {
  documentId : string;
  idToken : string;
  platform : Platform
}.
End ClearReportRequest.

(** *** Conventions the shapes are read by *)

(** The two responses that report a batch action have the same fields. *)
Class BatchActionResponse (R : Type) : Type := {
  error : R -> option string;
  failedScreennames : R -> option (list string)
}.

#[global] Instance BlockTwitterUsersResponse_batch
  : BatchActionResponse BlockTwitterUsersResponse.t :=
  {| error := BlockTwitterUsersResponse.error;
     failedScreennames := BlockTwitterUsersResponse.failedScreennames |}.

#[global] Instance MuteTwitterUsersResponse_batch
  : BatchActionResponse MuteTwitterUsersResponse.t :=
  {| error := MuteTwitterUsersResponse.error;
     failedScreennames := MuteTwitterUsersResponse.failedScreennames |}.

Inductive BatchOutcome : Type :=
| FullSuccess
| PartialSuccess (failed : list string)
| TotalFailure (message : string).

(** Modelled from the spec: how a consumer reads a batch-action response
    (the code that sends block and mute requests and reads their responses
    is not part of these sources).  A top-level error is a total failure;
    without one, a non-empty list of failed screen names is a partial
    success and an empty or absent list is a full success. *)
Definition batch_outcome {R : Type} `{BatchActionResponse R} (r : R)
  : BatchOutcome :=
  match error r with
  | Some message => TotalFailure message
  | None =>
      match failedScreennames r with
      | None | Some [] => FullSuccess
      | Some (name :: names) => PartialSuccess (name :: names)
      end
  end.

(** Every outcome is the reading of some response of the shape [R]. *)
Definition all_outcomes_representable (R : Type) `{BatchActionResponse R}
  : Prop :=
  (exists r : R, failedScreennames r = None /\ batch_outcome r = FullSuccess) /\
  (exists r : R,
     failedScreennames r = Some [] /\ batch_outcome r = FullSuccess) /\
  (forall name names, exists r : R,
     error r = None /\ failedScreennames r = Some (name :: names) /\
     batch_outcome r = PartialSuccess (name :: names)) /\
  (forall message failed, exists r : R,
     error r = Some message /\ failedScreennames r = failed /\
     batch_outcome r = TotalFailure message).

(** Modelled from the spec: how a consumer pages through tweets (the code
    that issues the requests is not part of these sources).  A response
    without a continuation token is the last page; one with a token is
    followed by the same request carrying that token. *)
Definition isFinalPage (resp : GetTweetsResponse.t) : bool :=
  match GetTweetsResponse.nextPageToken resp with
  | None => true
  | Some _ => false
  end.

Definition followUpRequest {UserCredential : Type}
  (req : GetTweetsRequest.t UserCredential) (resp : GetTweetsResponse.t)
  : option (GetTweetsRequest.t UserCredential) :=
  match GetTweetsResponse.nextPageToken resp with
  | None => None
  | Some token =>
      Some {| GetTweetsRequest.credentials := GetTweetsRequest.credentials req;
              GetTweetsRequest.nextPageToken := Some token;
              GetTweetsRequest.fromDate := GetTweetsRequest.fromDate req;
              GetTweetsRequest.toDate := GetTweetsRequest.toDate req |}
  end.

(** Modelled from the spec: the check of the invariant of a
    [CsvFileTemplate] (the sources declare the shape only): every body row
    is as long as the header row. *)
Definition csvWellFormed (t : CsvFileTemplate.t) : bool :=
  forallb
    (fun row => Nat.eqb (length row) (length (CsvFileTemplate.header t)))
    (CsvFileTemplate.bodyRows t).

End CommonTypes.

(** ** SCSS: syntax, mixin expansion and un-nesting *)

Module Scss.

Local Open Scope list_scope.

(** A declaration's value is text with the Sass variables it mentions kept
    apart, so that including a mixin can replace them. *)
Inductive part : Type :=
| Lit (s : string)
| Var (name : string).

Record declaration : Type := {
  property : string;
  val : list part;
  important : bool
}.

Inductive stmt : Type :=
| Import (target : string)
| Assign (variable : string) (expr : string)
| Include (mixin : string) (args : list string)
| Mixin (name : string) (params : list string) (body : list stmt)
| Decl (d : declaration)
| Rule (selectors : list string) (body : list stmt).

(** [p: v;] and [p: v !important;] *)
Definition decl (p v : string) : stmt :=
  Decl {| property := p; val := [Lit v]; important := false |}.

Definition decl_important (p v : string) : stmt :=
  Decl {| property := p; val := [Lit v]; important := true |}.

Definition decl_parts (p : string) (v : list part) : stmt :=
  Decl {| property := p; val := v; important := false |}.

Definition render_part (p : part) : string :=
  match p with
  | Lit s => s
  | Var x => "$" +:+ x
  end.

Definition render (v : list part) : string :=
  foldr (fun p acc => render_part p +:+ acc) "" v.

(** *** Mixins *)

Fixpoint assoc {A : Type} (k : string) (l : list (string * A)) : option A :=
  match l with
  | [] => None
  | (k', a) :: l' => if decide (k = k') then Some a else assoc k l'
  end.

Fixpoint bind_params (params args : list string) : list (string * string) :=
  match params, args with
  | p :: params', a :: args' => (p, a) :: bind_params params' args'
  | _, _ => []
  end.

Definition subst_part (sigma : list (string * string)) (p : part) : part :=
  match p with
  | Lit s => Lit s
  | Var x =>
      match assoc x sigma with
      | Some a => Lit a
      | None => Var x
      end
  end.

Definition subst_decl (sigma : list (string * string)) (d : declaration)
  : declaration :=
  {| property := property d;
     val := map (subst_part sigma) (val d);
     important := important d |}.

Fixpoint subst_stmt (sigma : list (string * string)) (s : stmt) : stmt :=
  match s with
  | Decl d => Decl (subst_decl sigma d)
  | Rule sels body => Rule sels (map (subst_stmt sigma) body)
  | Mixin n ps body => Mixin n ps (map (subst_stmt sigma) body)
  | Import _ | Assign _ _ | Include _ _ => s
  end.

(** The mixins in scope: name, parameters and body, the body already
    expanded where it was defined. *)
Definition mixins : Type := list (string * (list string * list stmt)).

(** Replaces every [@include] of a mixin defined earlier in the file by the
    mixin's body with the arguments in place of the parameters, and drops
    the [@mixin] definitions.  An [@include] of a mixin the file does not
    define (the theming library's) is kept as it is.  A mixin defined
    inside a rule is in scope to the end of that rule. *)
Fixpoint expand_stmt (env : mixins) (s : stmt) : mixins * list stmt :=
  let expand_body :=
    fix go (env : mixins) (l : list stmt) : list stmt :=
      match l with
      | [] => []
      | x :: l' =>
          let '(env', out) := expand_stmt env x in
          out ++ go env' l'
      end in
  match s with
  | Mixin n ps body => ((n, (ps, expand_body env body)) :: env, [])
  | Include n args =>
      match assoc n env with
      | Some (ps, body) => (env, map (subst_stmt (bind_params ps args)) body)
      | None => (env, [s])
      end
  | Rule sels body => (env, [Rule sels (expand_body env body)])
  | Import _ | Assign _ _ | Decl _ => (env, [s])
  end.

Fixpoint expand_from (env : mixins) (l : list stmt) : list stmt :=
  match l with
  | [] => []
  | x :: l' =>
      let '(env', out) := expand_stmt env x in
      out ++ expand_from env' l'
  end.

Definition expand (sheet : list stmt) : list stmt := expand_from [] sheet.

(** *** Nesting *)

Fixpoint has_ampersand (s : string) : bool :=
  match s with
  | EmptyString => false
  | String c s' => if decide (c = "&"%char) then true else has_ampersand s'
  end.

Fixpoint replace_ampersand (parent s : string) : string :=
  match s with
  | EmptyString => EmptyString
  | String c s' =>
      if decide (c = "&"%char)
      then parent +:+ replace_ampersand parent s'
      else String c (replace_ampersand parent s')
  end.

(** A nested selector under one parent selector: [&] stands for the
    parent; without [&] the nested selector is a descendant of it. *)
Definition resolve (parent child : string) : string :=
  if has_ampersand child
  then replace_ampersand parent child
  else parent +:+ " " +:+ child.

Definition nest (parents children : list string) : list string :=
  match parents with
  | [] => children
  | _ => p ← parents; resolve p <$> children
  end.

Definition own_declarations (body : list stmt) : list declaration :=
  omap (fun s => match s with Decl d => Some d | _ => None end) body.

(** A rule of the generated CSS: its selectors and its declarations. *)
Definition css_rule : Type := list string * list declaration.

(** The CSS rules a statement generates under the given parent selectors: a
    rule with declarations of its own comes first, then the rules nested in
    it. *)
Fixpoint flatten_stmt (parents : list string) (s : stmt) : list css_rule :=
  match s with
  | Rule sels body =>
      let sels' := nest parents sels in
      let nested :=
        (fix go (l : list stmt) : list css_rule :=
           match l with
           | [] => []
           | x :: l' => flatten_stmt sels' x ++ go l'
           end) body in
      match own_declarations body with
      | [] => nested
      | ds => (sels', ds) :: nested
      end
  | _ => []
  end.

Definition flatten (sheet : list stmt) : list css_rule :=
  s ← sheet; flatten_stmt [] s.

(** The CSS the file itself generates. *)
Definition compile (sheet : list stmt) : list css_rule :=
  flatten (expand sheet).

(** *** Queries *)

(** The values declared for [prop] on exactly the selector [sel], in source
    order. *)
Definition declared (sel prop : string) (css : list css_rule)
  : list (string * bool) :=
  r ← css;
  if decide (sel ∈ r.1)
  then
    omap (fun d =>
            if decide (property d = prop)
            then Some (render (val d), important d)
            else None) r.2
  else [].

(** The declarations of the generated CSS that are marked [!important],
    each with the selectors of its rule. *)
Definition important_rules (css : list css_rule)
  : list (list string * string * string) :=
  r ← css;
  omap (fun d =>
          if important d
          then Some (r.1, property d, render (val d))
          else None) r.2.

(** Every declaration in the source, marked or not. *)
Fixpoint declarations_in (s : stmt) : list declaration :=
  match s with
  | Decl d => [d]
  | Rule _ body | Mixin _ _ body =>
      (fix go (l : list stmt) : list declaration :=
         match l with
         | [] => []
         | x :: l' => declarations_in x ++ go l'
         end) body
  | Import _ | Assign _ _ | Include _ _ => []
  end.

Definition all_declarations (sheet : list stmt) : list declaration :=
  s ← sheet; declarations_in s.

(** The declarations marked [!important], as written in the source. *)
Definition important_declarations (sheet : list stmt) : list declaration :=
  filter (fun d => important d = true) (all_declarations sheet).

End Scss.

(** ** CSS values: the [inset()] shape of a clip path *)

Module Css.

Local Open Scope Q_scope.

(** A length-percentage as the stylesheet writes it: [n%], [var(--name)]
    or [calc(a - b)]. *)
Inductive length_percentage : Type :=
| Percent (n : Z)
| CustomProperty (name : string)
| CalcMinus (a b : length_percentage).

(** [inset(top right bottom left)] *)
Record inset : Type := {
  inset_top : length_percentage;
  inset_right : length_percentage;
  inset_bottom : length_percentage;
  inset_left : length_percentage
}.

Fixpoint show_operand (e : length_percentage) : string :=
  match e with
  | Percent n => pretty n +:+ "%"
  | CustomProperty name => "var(" +:+ name +:+ ")"
  | CalcMinus a b => "(" +:+ show_operand a +:+ " - " +:+ show_operand b +:+ ")"
  end.

Definition show_length_percentage (e : length_percentage) : string :=
  match e with
  | CalcMinus _ _ => "calc" +:+ show_operand e
  | _ => show_operand e
  end.

Definition show_inset (i : inset) : string :=
  "inset(" +:+ show_length_percentage (inset_top i) +:+ " "
  +:+ show_length_percentage (inset_right i) +:+ " "
  +:+ show_length_percentage (inset_bottom i) +:+ " "
  +:+ show_length_percentage (inset_left i) +:+ ")".

(** What a custom property is set to on the element: a percentage, a
    length in pixels, or something that is neither. *)
Inductive custom_value : Type :=
| IsPercent (q : Q)
| IsPixels (q : Q)
| IsOther (s : string).

(** A computed length-percentage: a percentage of the reference box plus a
    length in pixels. *)
Record computed : Type := {
  percent : Q;
  pixels : Q
}.

Definition of_percent (q : Q) : computed := {| percent := q; pixels := 0 |}.

Definition of_pixels (q : Q) : computed := {| percent := 0; pixels := q |}.

(** The computed value of a length-percentage, given the custom properties
    of the element.  A reference to a custom property that is not set, or
    is set to something that is not a length or percentage, makes the
    declaration invalid at computed-value time: there is no value. *)
Fixpoint compute (env : gmap string custom_value) (e : length_percentage)
  : option computed :=
  match e with
  | Percent n => Some (of_percent (inject_Z n))
  | CustomProperty name =>
      match env !! name with
      | Some (IsPercent q) => Some (of_percent q)
      | Some (IsPixels q) => Some (of_pixels q)
      | Some (IsOther _) | None => None
      end
  | CalcMinus a b =>
      match compute env a, compute env b with
      | Some x, Some y =>
          Some {| percent := percent x - percent y;
                  pixels := pixels x - pixels y |}
      | _, _ => None
      end
  end.

Record computed_inset : Type := {
  computed_top : computed;
  computed_right : computed;
  computed_bottom : computed;
  computed_left : computed
}.

Definition compute_inset (env : gmap string custom_value) (i : inset)
  : option computed_inset :=
  match compute env (inset_top i), compute env (inset_right i),
        compute env (inset_bottom i), compute env (inset_left i) with
  | Some t, Some r, Some b, Some l =>
      Some {| computed_top := t; computed_right := r;
              computed_bottom := b; computed_left := l |}
  | _, _, _, _ => None
  end.

End Css.

(** ** [styles.scss] *)

Module Styles.

Import Scss.
Local Open Scope list_scope.

Definition double_quote : string := String (ascii_of_nat 34) EmptyString.

(** The argument of the typography override; the font name is quoted inside
    the quoted list. *)
Definition typography_config : string :=
  "mat-typography-config($font-family: '" +:+ double_quote +:+ "Google Sans"
  +:+ double_quote +:+ ", Arial, sans-serif')".

(** The statements of the stylesheet in source order.  Comments are left
    out and white space inside selectors and values is normalised. *)
Definition styles : list stmt :=
  [ Import "url('//fonts.googleapis.com/css?family=Google+Sans:400,500,600')";

    Import "url(../node_modules/nouislider/distribute/nouislider.css)";

    Import "'~@angular/material/theming'";

    Include "mat-core" [];

    Import "'~@angular/cdk/overlay-prebuilt.css'";

    Assign "documentation-app-primary" "mat-palette($mat-pink, 800, 600, 900)";

    Assign "documentation-app-accent"
      "mat-palette($mat-purple, A200, A100, A400)";

    Assign "documentation-app-warn" "mat-palette($mat-red)";

    Assign "documentation-app-theme"
      "mat-light-theme($documentation-app-primary, $documentation-app-accent, $documentation-app-warn)";

    Include "angular-material-theme" ["$documentation-app-theme"];

    Rule ["*"]
      [ decl "font-family" "'Google Sans', Arial, sans-serif" ];

    Include "angular-material-typography" [typography_config];

    Rule ["div"; "h1"; "h2"; "h3"; "p"]
      [ decl "font-weight" "400" ];

    Rule ["body"]
      [ decl "height" "100vh";
        decl "margin" "0px" ];

    Rule [".mat-list-base .comment-card .mat-list-option.list-item-container .mat-list-item-content-reverse .mat-list-text"]
      [ decl "align-self" "flex-start" ];

    Rule [".action-warning-dialog-container"; ".api-error-dialog-container"]
      [ Rule [".mat-dialog-container"]
          [ decl "border-radius" "20px";
            decl "padding-left" "32px";
            decl "padding-right" "26px";
            decl "padding-top" "28px" ] ];

    Rule [".exit-dialog-container .mat-dialog-container"]
      [ decl "background" "none";
        decl "box-shadow" "none";
        decl "padding" "0px" ];

    Rule [".loading-dialog-container .mat-dialog-container"]
      [ decl "border-radius" "8px" ];

    Rule [".clear-report-dialog-container .mat-dialog-container"]
      [ decl "border-radius" "20px";
        decl "width" "633px" ];

    Rule [".comment-card .mat-list-option.list-item-container .mat-pseudo-checkbox"]
      [ decl "align-self" "flex-start" ];

    Rule ["app-help-center .mat-form-field-appearance-outline .mat-form-field-outline-start"]
      [ decl "border-radius" "30px 0 0 30px";
        decl "min-width" "40px" ];

    Rule ["app-help-center .mat-form-field-appearance-outline .mat-form-field-outline"]
      [ decl "background-color" "#ffffff";
        decl "border-radius" "30px" ];

    Rule ["app-help-center .mat-form-field-appearance-outline .mat-form-field-outline-end"]
      [ decl "border-radius" "0 30px 30px 0" ];

    Rule ["app-help-center .mat-form-field-flex"]
      [ decl "align-items" "center" ];

    Rule ["app-help-center .mat-form-field-appearance-outline .mat-form-field-infix"]
      [ decl "padding-top" "0.5em" ];

    Rule [ "app-help-center .mat-form-field-appearance-outline .mat-form-field-prefix";
           "app-help-center .mat-form-field-appearance-outline .mat-form-field-suffix" ]
      [ decl "top" "0.1em" ];

    Rule [ "app-help-center .mat-expansion-panel-header";
           "app-help-center .mat-expansion-panel-body" ]
      [ decl "padding-left" "32px";
        decl "padding-right" "32px" ];

    Rule [ "app-filter-dropdown .mat-form-field-appearance-outline .mat-form-field-outline-start";
           "app-search-box .mat-form-field-appearance-outline .mat-form-field-outline-start" ]
      [ decl "border-radius" "20px 0 0 20px";
        decl "min-width" "40px" ];

    Rule [ "app-filter-dropdown .mat-form-field-appearance-outline .mat-form-field-outline-end";
           "app-search-box .mat-form-field-appearance-outline .mat-form-field-outline-end" ]
      [ decl "border-radius" "0 20px 20px 0" ];

    Rule [ "app-filter-dropdown .mat-form-field";
           "app-search-box .mat-form-field" ]
      [ decl "min-height" "4em" ];

    Rule [ "app-filter-dropdown .mat-form-field-appearance-outline .mat-form-field-outline";
           "app-search-box .mat-form-field-appearance-outline .mat-form-field-outline" ]
      [ decl "bottom" "0.4em";
        decl "top" "1em" ];

    Rule ["app-filter-dropdown .filter-active.mat-form-field-appearance-outline .mat-form-field-outline"]
      [ decl "background-color" "rgba(209, 179, 195, 0.2)";
        decl "border-radius" "20px" ];

    Rule ["app-filter-dropdown .mat-form-field-appearance-outline .mat-select-arrow-wrapper"]
      [ decl "transform" "none" ];

    Rule ["app-filter-dropdown .mat-select-trigger"]
      [ decl "padding-left" "8px" ];

    Rule ["app-filter-dropdown .mat-option .mat-icon"]
      [ decl "margin-right" "0px" ];

    Rule [".mat-primary .mat-option.mat-selected:not(.mat-option-disabled).black-on-select"]
      [ decl "color" "black" ];

    Rule ["app-report-pdf"]
      [ decl "font-family" "'Roboto', sans-serif" ];

    Rule ["app-report-pdf *"]
      [ decl "font-family" "inherit" ];

    Rule [".chip-option .mat-option-text"]
      [ decl "padding-left" "8px" ];

    Rule [".custom-option-multi-select"]
      [ decl "border-top" "1px solid rgba(0, 0, 0, 0.5)" ];

    Rule [".custom-option-multi-select .mat-option-text"]
      [ decl "padding-left" "0px" ];

    Rule [".custom-option-multi-select .mat-option-text mat-icon"]
      [ decl "font-size" "20px";
        decl "height" "20px";
        decl "margin-right" "8px";
        decl "width" "20px" ];

    Rule [".custom-option-multi-select .mat-pseudo-checkbox"]
      [ decl "display" "none" ];

    Rule ["app-search-box .mat-chip-list-wrapper .mat-standard-chip"]
      [ decl "margin-bottom" "1px";
        decl "margin-left" "4px";
        decl "margin-right" "4px";
        decl "margin-top" "1px" ];

    Rule ["app-search-box .mat-form-field-appearance-outline .mat-form-field-flex"]
      [ decl "align-items" "center" ];

    Rule [".filters-container .mat-form-field-infix"]
      [ decl "border-top" "0.65em solid transparent" ];

    Rule ["app-create-report .options-dropdown .mat-form-field-appearance-legacy .mat-form-field-underline"]
      [ decl "display" "none" ];

    Rule ["h2"]
      [ decl "font-size" "24px" ];

    Rule ["button"]
      [ Rule ["&.action-button"; "&.action-button-stroked"]
          [ decl "border-radius" "18px";
            decl "text-transform" "capitalize" ];
        Rule ["&.action-button"]
          [ decl "background-color" "#b23c66";
            decl "color" "#ffffff" ];
        Rule ["&.action-button-stroked"]
          [ decl "background-color" "transparent";
            decl "border" "1px solid #a54167";
            decl "color" "#a54167" ] ];

    Rule ["app-review-report .additional-notes textarea.mat-input-element"]
      [ decl "height" "235px" ];

    Rule ["app-review-report .mat-form-field-appearance-outline .mat-form-field-outline"]
      [ decl "background-color" "#fff";
        decl "border-radius" "5px";
        decl "color" "rgba(0, 0, 0, 0.54)" ];

    Rule ["app-create-report mat-paginator .mat-paginator-range-label"]
      [ decl "margin" "0" ];

    Rule ["app-create-report .loading mat-paginator .mat-paginator-range-label"]
      [ decl "visibility" "hidden" ];

    Rule ["app-toxicity-range-filter .noUi-connects"]
      [ decl "background"
          "linear-gradient(to right, #34a85340 0%, #fbbc0440 50%, #e9423540 100%)" ];

    Rule ["app-toxicity-range-filter .noUi-connect"]
      [ decl "background"
          "linear-gradient(to right, #4d9966 0%, #9da1a3 50%, #e37400 100%)";
        decl "clip-path"
          "inset(0% calc(100% - var(--max-score)) 0% var(--min-score))";
        decl_important "transform" "none" ];

    Rule ["app-toxicity-range-filter .noUi-horizontal .noUi-handle"]
      [ decl "border-radius" "10px";
        decl "height" "20px";
        decl "top" "-8px";
        decl "width" "20px" ];

    Rule [ "app-toxicity-range-filter .noUi-handle:before";
           ".noUi-handle:after" ]
      [ decl "display" "none" ];

    Rule [ "app-toxicity-range-selector-dialog .mat-form-field-infix";
           "app-toxicity-range-selector-dialog .mat-form-field-suffix" ]
      [ decl "font-weight" "500" ];

    Rule ["app-welcome-page .mat-expansion-panel-content"]
      [ decl "font-size" "18px" ];

    Rule [".toxicity-tooltip"; ".unscored-tooltip"; ".actions-tooltip"]
      [ decl "background-color" "#b23c66";
        decl "color" "#fff";
        decl "font-size" "14px";
        decl "line-height" "22px";
        decl_important "padding" "16px" ];

    Rule [".onboarding-backdrop"]
      [ decl "background-color" "rgba(0, 0, 0, 0.6)" ];

    Rule [".onboarding-view-settings"]
      [ decl "height" "202px" ];

    Rule [".onboarding-filters"]
      [ decl "height" "190px" ];

    Rule [".onboarding-pagination"]
      [ decl "height" "165px" ];

    Rule [".onboarding-recommended-reports"]
      [ decl "height" "193px" ];

    Rule [".onboarding-comment-card"]
      [ decl "height" "165px" ];

    Rule [".onboarding-review-report"]
      [ decl "height" "188px" ];

    Rule [ ".exit-dialog";
           ".onboarding-recommended-reports";
           ".onboarding-view-settings";
           ".onboarding-filters";
           ".onboarding-pagination";
           ".onboarding-comment-card";
           ".onboarding-review-report" ]
      [ decl "background" "#b23c66";
        decl "box-shadow"
          "0px 2px 2px rgba(0, 0, 0, 0.24), 0px 0px 2px rgba(0, 0, 0, 0.12)";
        decl "color" "#ffffff";
        decl "font-size" "14px";
        decl "line-height" "22px";
        decl "width" "376px";
        Rule [".message"]
          [ decl "padding-left" "22px";
            decl "padding-right" "24px" ];
        Rule ["button"]
          [ decl "background-color" "#ffffff";
            decl "border-radius" "18px";
            decl "height" "36px";
            decl "margin-left" "22px";
            decl "margin-top" "8px";
            decl "text-transform" "uppercase";
            decl "width" "110px" ];
        Rule ["h1"]
          [ decl "font-size" "24px";
            decl "line-height" "28px";
            decl "padding-left" "22px";
            decl "padding-right" "24px";
            decl "margin-bottom" "8px";
            decl "margin-top" "18px" ] ];

    Mixin "max-slide-toggle-theme" ["color"; "left-offset"]
      [ Rule [".mat-slide-toggle-bar"]
          [ decl "background-color" "transparent";
            decl_parts "border" [Lit "1px solid "; Var "color"] ];
        Rule [".mat-slide-toggle-thumb-container"]
          [ decl_parts "left" [Var "left-offset"] ];
        Rule [".mat-slide-toggle-thumb"]
          [ decl_parts "background-color" [Var "color"] ] ];

    Rule [".mat-slide-toggle"]
      [ Include "max-slide-toggle-theme" ["#606266"; "-1px"] ];

    Rule [".mat-slide-toggle.mat-checked"]
      [ Include "max-slide-toggle-theme" ["#a54167"; "1px"];
        Rule [".mat-slide-toggle-thumb::after"]
          [ decl "background" "url('assets/checkmark.svg') no-repeat 0 0";
            decl "content" "' '";
            decl "height" "18px";
            decl "width" "18px";
            decl "position" "absolute";
            decl "left" "1px";
            decl "top" "1px" ] ];

    Rule [".dropdown-backdrop"]
      [ decl "background-color" "transparent" ];

    Rule [".visually-hidden"]
      [ decl "clip" "rect(0 0 0 0)";
        decl "clip-path" "inset(50%)";
        decl "height" "1px";
        decl "overflow" "hidden";
        decl "position" "absolute";
        decl "white-space" "nowrap";
        decl "width" "1px" ] ].

(** The CSS the stylesheet generates. *)
Definition css : list css_rule := compile styles.

(** The two declarations the stylesheet marks [!important]. *)
Definition connector_transform : declaration :=
  {| property := "transform"; val := [Lit "none"]; important := true |}.

Definition tooltip_padding : declaration :=
  {| property := "padding"; val := [Lit "16px"]; important := true |}.

Definition connector_selectors : list string :=
  ["app-toxicity-range-filter .noUi-connect"].

Definition tooltip_selectors : list string :=
  [".toxicity-tooltip"; ".unscored-tooltip"; ".actions-tooltip"].

(** The clip path of the slider's connector, as a value. *)
Definition noUi_connect_clip : Css.inset :=
  {| Css.inset_top := Css.Percent 0;
     Css.inset_right :=
       Css.CalcMinus (Css.Percent 100) (Css.CustomProperty "--max-score");
     Css.inset_bottom := Css.Percent 0;
     Css.inset_left := Css.CustomProperty "--min-score" |}.

End Styles.

(** ** Sample values *)

Module Samples.

Import JS CommonTypes.

(** The realm state of the samples: a counter that running code may bump. *)
Definition world : Type := nat.

(** An OAuth credential as the firebase SDK builds one after a Twitter
    sign-in. *)
Definition twitter_credential : value world :=
  Object
    (<["providerId" := Data (Str "twitter.com")]>
      (<["signInMethod" := Data (Str "twitter.com")]>
        (<["accessToken" := Data (Str "token")]>
          (<["secret" := Data (Str "secret")]> ∅))))
    None.

(** A service credential as google-auth-library holds one. *)
Definition service_credential : value world :=
  Object
    (<["access_token" := Data (Str "ya29.token")]>
      (<["token_type" := Data (Str "Bearer")]>
        (<["expiry_date" := Data (Number 1605557880000)]>
          (<["refresh_token" := Data Null]> ∅))))
    None.

(** The same service credential with a [signInMethod] field added. *)
Definition service_credential_with_signInMethod : value world :=
  Object
    (<["signInMethod" := Data (Str "password")]>
      (<["access_token" := Data (Str "ya29.token")]>
        (<["token_type" := Data (Str "Bearer")]>
          (<["expiry_date" := Data (Number 1605557880000)]>
            (<["refresh_token" := Data Null]> ∅)))))
    None.

(** An object that inherits [signInMethod] from its prototype. *)
Definition inheriting_credential : value world :=
  Object (<["accessToken" := Data (Str "token")]> ∅)
         (Some (Object (<["signInMethod" := Data (Str "twitter.com")]> ∅)
                       None)).

(** An object whose [signInMethod] is set to [undefined]. *)
Definition undefined_signInMethod : value world :=
  Object (<["signInMethod" := Data Undefined]> ∅) None.

(** Objects whose [signInMethod] is an accessor: one getter throws, the
    other bumps the counter. *)
Definition throwing_credential : value world :=
  Object (<["signInMethod" := Accessor (throw (Thrown "no"))]> ∅) None.

Definition counting_credential : value world :=
  Object
    (<["signInMethod" :=
         Accessor (fun w : world => (inl (Str "twitter.com"), S w))]> ∅)
    None.

(** A template with a two-column header and three rows of two cells. *)
Definition csv_valid : CsvFileTemplate.t :=
  {| CsvFileTemplate.title := "Report";
     CsvFileTemplate.header := ["Comment"; "Author"];
     CsvFileTemplate.bodyRows :=
       [["a"; "alice"]; ["b"; "bob"]; ["c"; "carol"]] |}.

(** The same header with one row of three cells among the rows. *)
Definition csv_invalid : CsvFileTemplate.t :=
  {| CsvFileTemplate.title := "Report";
     CsvFileTemplate.header := ["Comment"; "Author"];
     CsvFileTemplate.bodyRows :=
       [["a"; "alice"]; ["b"; "bob"; "extra"]; ["c"; "carol"]] |}.

(** A first request for the tweets of November 2020, a page that has a
    successor and a page that has none. *)
Definition first_request : GetTweetsRequest.t unit :=
  {| GetTweetsRequest.credentials := None;
     GetTweetsRequest.nextPageToken := None;
     GetTweetsRequest.fromDate := "202011010000";
     GetTweetsRequest.toDate := "202011302359" |}.

Definition middle_page : GetTweetsResponse.t :=
  {| GetTweetsResponse.tweets := [];
     GetTweetsResponse.nextPageToken := Some "eyJtYXhJZCI6MTJ9" |}.

Definition last_page : GetTweetsResponse.t :=
  {| GetTweetsResponse.tweets := [];
     GetTweetsResponse.nextPageToken := None |}.

(** The slider set to the range from 20% to 80%. *)
Definition scores_20_80 : gmap string Css.custom_value :=
  <["--min-score" := Css.IsPercent (20 # 1)]>
    (<["--max-score" := Css.IsPercent (80 # 1)]> ∅).

End Samples.

(** ** The object a numeric enumeration compiles to *)

Module EnumObject.

Import CommonTypes.

(** A numeric enum compiles to an object that maps each member's name to
    its number and each number back to the name.  The assignments run in
    declaration order, so of two members with the same number the later
    one is the name the number maps back to. *)
Definition reverse_mapping (vs : list (string * Z)) : gmap Z string :=
  foldl (fun m p => <[p.2 := p.1]> m) ∅ vs.

Definition BuildReportStep_name (s : BuildReportStep) : string :=
  match s with
  | NONE => "NONE"
  | ADD_COMMENTS => "ADD_COMMENTS"
  | EDIT_DETAILS => "EDIT_DETAILS"
  | TAKE_ACTION => "TAKE_ACTION"
  | COMPLETE => "COMPLETE"
  end.

(** The name-to-number half of [BuildReportStep]. *)
Definition BuildReportStep_numbers : list (string * Z) :=
  (fun p => (BuildReportStep_name p.1, p.2))
    <$> number_members 0%Z BuildReportStep_members.

(** [BuildReportStep[n]] *)
Definition BuildReportStep_at (n : Z) : option string :=
  reverse_mapping BuildReportStep_numbers !! n.

End EnumObject.

(** ** Queries on the generated CSS *)

Module StyleQueries.

Import Scss Styles.
Local Open Scope list_scope.



(** All that is declared on exactly the selector [sel], in source order. *)
Definition declarations_of (sel : string) (css : list css_rule)
  : list (string * string * bool) :=
  r ← css;
  if decide (sel ∈ r.1)
  then (fun d => (property d, render (val d), important d)) <$> r.2
  else [].

(** The six onboarding overlay cards. *)
Definition onboarding_cards : list string :=
  [ ".onboarding-view-settings";
    ".onboarding-filters";
    ".onboarding-pagination";
    ".onboarding-recommended-reports";
    ".onboarding-comment-card";
    ".onboarding-review-report" ].


End StyleQueries.

(** ** Properties of [isFirebaseCredential] *)

Module CredentialFacts.

Import JS CommonTypes.

Section Facts.

Context {W : Type}.

Implicit Types (v : value W) (w : W).

Lemma find_slot_own props proto k (s : slot W (value W)) :
  props !! k = Some s -> find_slot (Object props proto) k = Some s.
Proof. intros Hk. simpl. by rewrite Hk. Qed.

Lemma find_slot_insert props proto k (s : slot W (value W)) :
  find_slot (Object (<[k := s]> props) proto) k = Some s.
Proof. apply find_slot_own, lookup_insert_eq. Qed.

Lemma is_undefined_true (x : value W) :
  is_undefined x = true <-> x = Undefined.
Proof. by destruct x. Qed.

Lemma strict_neq_undefined_true (x : value W) :
  strict_neq_undefined x = true <-> x <> Undefined.
Proof. destruct x; simpl; split; (done || congruence). Qed.

(** On a plain credential the read completes with the field's value and
    leaves the realm as it was. *)
Lemma get_signInMethod_plain v w :
  plain_credential v = true ->
  get v "signInMethod" w = (inl (signInMethod_of v), w).
Proof.
  unfold plain_credential. intros [Hobj Hslot]%andb_prop.
  destruct v; try discriminate Hobj.
  unfold get, signInMethod_of in *.
  by destruct (find_slot _ _) as [[x | g] | ].
Qed.

Lemma isFirebaseCredential_plain v w :
  plain_credential v = true ->
  isFirebaseCredential v w
  = (inl (strict_neq_undefined (signInMethod_of v)), w).
Proof.
  intros Hv. unfold isFirebaseCredential, bind.
  by rewrite get_signInMethod_plain.
Qed.

Lemma oauth_shaped_plain v :
  oauth_shaped v = true -> plain_credential v = true.
Proof.
  unfold oauth_shaped, plain_credential.
  intros [-> Hslot]%andb_prop. by destruct (find_slot _ _) as [[x | g] | ].
Qed.

Lemma service_shaped_plain v :
  service_shaped v = true -> plain_credential v = true.
Proof.
  unfold service_shaped, plain_credential.
  intros [-> Hslot]%andb_prop. by destruct (find_slot _ _) as [[x | g] | ].
Qed.

Lemma conforming_plain v : conforming v = true -> plain_credential v = true.
Proof.
  unfold conforming.
  intros [H | H]%orb_prop; auto using oauth_shaped_plain, service_shaped_plain.
Qed.

Lemma signInMethod_of_oauth v :
  oauth_shaped v = true -> strict_neq_undefined (signInMethod_of v) = true.
Proof.
  unfold oauth_shaped, signInMethod_of, strict_neq_undefined.
  intros [_ Hslot]%andb_prop. by destruct (find_slot _ _) as [[x | g] | ].
Qed.

Lemma signInMethod_of_service v :
  service_shaped v = true -> strict_neq_undefined (signInMethod_of v) = false.
Proof.
  unfold service_shaped, signInMethod_of.
  intros [_ Hslot]%andb_prop. by destruct (find_slot _ _) as [[x | g] | ].
Qed.

Lemma signInMethod_of_defined v :
  signInMethod_of v <> Undefined <->
  exists x, find_slot v "signInMethod" = Some (Data x) /\ x <> Undefined.
Proof.
  unfold signInMethod_of. split.
  - destruct (find_slot _ _) as [[x | g] | ]; [eauto | done | done].
  - intros (x & Hx & Hne). by rewrite Hx.
Qed.

(** C1: on every credential object whose [signInMethod] is a data property
    or missing, [isFirebaseCredential] returns a boolean that is true
    exactly when the field is present and not undefined; it is true on
    every value of the OAuth-style shape and false on every value of the
    service-credential shape. *)
Theorem isFirebaseCredential_iff_signInMethod v w
  (Hv : plain_credential v = true) :
  exists b : bool,
    isFirebaseCredential v w = (inl b, w) /\
    (b = true <->
     exists x, find_slot v "signInMethod" = Some (Data x) /\ x <> Undefined) /\
    (oauth_shaped v = true -> b = true) /\
    (service_shaped v = true -> b = false).
Proof.
  exists (strict_neq_undefined (signInMethod_of v)).
  split; [by apply isFirebaseCredential_plain | ].
  split; [ | split].
  - rewrite strict_neq_undefined_true. apply signInMethod_of_defined.
  - apply signInMethod_of_oauth.
  - apply signInMethod_of_service.
Qed.

(** C6: on every value of the declared union, [isFirebaseCredential]
    completes with a boolean: it does not throw and it leaves the state of
    the realm unchanged. *)
Theorem isFirebaseCredential_total v w (Hv : conforming v = true) :
  exists b : bool, isFirebaseCredential v w = (inl b, w).
Proof.
  eexists. apply isFirebaseCredential_plain, conforming_plain, Hv.
Qed.

(** C10: the result of [isFirebaseCredential] is a function of whether the
    [signInMethod] field reads as undefined: two credentials that agree on
    that get the same answer, whatever their other fields; a credential
    whose field is defined is classified as OAuth-style, and so is any
    object at all once a defined [signInMethod] is set on it. *)
Theorem isFirebaseCredential_only_signInMethod v1 v2 w1 w2
  (H1 : plain_credential v1 = true) (H2 : plain_credential v2 = true)
  (Hsame : is_undefined (signInMethod_of v1)
           = is_undefined (signInMethod_of v2)) :
  (isFirebaseCredential v1 w1).1 = (isFirebaseCredential v2 w2).1 /\
  (is_undefined (signInMethod_of v1) = false ->
   isFirebaseCredential v1 w1 = (inl true, w1)) /\
  (forall props proto (x : value W) w,
     is_undefined x = false ->
     isFirebaseCredential (Object (<["signInMethod" := Data x]> props) proto) w
     = (inl true, w)).
Proof.
  rewrite !isFirebaseCredential_plain by done.
  unfold strict_neq_undefined. simpl. split; [by rewrite Hsame | ].
  split; [by intros -> | ].
  intros props proto x w Hx. rewrite isFirebaseCredential_plain.
  - unfold signInMethod_of, strict_neq_undefined.
    by rewrite find_slot_insert, Hx.
  - unfold plain_credential. by rewrite find_slot_insert.
Qed.

End Facts.

End CredentialFacts.

(** ** [isFirebaseCredential] on the sample credentials *)

Module CredentialSamples.

Import JS CommonTypes Samples CredentialFacts.

Example twitter_credential_oauth : oauth_shaped twitter_credential = true.
Proof. reflexivity. Qed.

Example service_credential_service :
  service_shaped service_credential = true.
Proof. reflexivity. Qed.

(** With the added field the service credential has the OAuth-style
    shape as far as the check can tell. *)
Example service_credential_with_signInMethod_oauth :
  oauth_shaped service_credential_with_signInMethod = true.
Proof. reflexivity. Qed.

Example isFirebaseCredential_twitter :
  isFirebaseCredential twitter_credential 0 = (inl true, 0).
Proof. reflexivity. Qed.

Example isFirebaseCredential_service :
  isFirebaseCredential service_credential 0 = (inl false, 0).
Proof. reflexivity. Qed.

Example isFirebaseCredential_inherited :
  isFirebaseCredential inheriting_credential 0 = (inl true, 0).
Proof. reflexivity. Qed.

Example isFirebaseCredential_undefined_field :
  isFirebaseCredential undefined_signInMethod 0 = (inl false, 0).
Proof. reflexivity. Qed.

(** Outside the declared union the call can throw or change the realm:
    [null] and [undefined] have no properties to read, and an accessor runs
    arbitrary code. *)
Example isFirebaseCredential_null :
  isFirebaseCredential (W := world) Null 0
  = (inr (TypeError "Cannot read properties of null"), 0).
Proof. reflexivity. Qed.

Example isFirebaseCredential_throwing_getter :
  isFirebaseCredential throwing_credential 0 = (inr (Thrown "no"), 0).
Proof. reflexivity. Qed.

Example isFirebaseCredential_counting_getter :
  isFirebaseCredential counting_credential 0 = (inl true, 1).
Proof. reflexivity. Qed.

Lemma isFirebaseCredential_iff_signInMethod_witness :
  exists b : bool,
    isFirebaseCredential twitter_credential 0 = (inl b, 0) /\
    (b = true <->
     exists x,
       find_slot twitter_credential "signInMethod" = Some (Data x) /\
       x <> Undefined) /\
    (oauth_shaped twitter_credential = true -> b = true) /\
    (service_shaped twitter_credential = true -> b = false).
Proof.
  apply (isFirebaseCredential_iff_signInMethod twitter_credential 0).
  reflexivity.
Defined.

Lemma isFirebaseCredential_total_witness :
  (exists b : bool,
     isFirebaseCredential twitter_credential 7 = (inl b, 7)) /\
  (exists b : bool,
     isFirebaseCredential service_credential 7 = (inl b, 7)).
Proof.
  split.
  - apply (isFirebaseCredential_total twitter_credential 7). reflexivity.
  - apply (isFirebaseCredential_total service_credential 7). reflexivity.
Defined.

(** A service credential that carries a [signInMethod] gets the answer an
    OAuth credential gets. *)
Lemma isFirebaseCredential_only_signInMethod_witness :
  (isFirebaseCredential service_credential_with_signInMethod 0).1
  = (isFirebaseCredential twitter_credential 3).1 /\
  (is_undefined (signInMethod_of service_credential_with_signInMethod)
   = false ->
   isFirebaseCredential service_credential_with_signInMethod 0
   = (inl true, 0)) /\
  (forall props proto (x : value world) w,
     is_undefined x = false ->
     isFirebaseCredential (Object (<["signInMethod" := Data x]> props) proto) w
     = (inl true, w)).
Proof.
  apply (isFirebaseCredential_only_signInMethod
           service_credential_with_signInMethod twitter_credential 0 3);
    reflexivity.
Defined.

End CredentialSamples.

(** ** Properties of the data model *)

Module CommonTypesFacts.

Import CommonTypes Samples.
Local Open Scope Z_scope.

(** *** Enumerations *)

(** Members without initializers are numbered consecutively. *)
Lemma number_members_consecutive {A : Type} (ms : list A) (next : Z) :
  number_members next ((fun m => (m, None)) <$> ms)
  = zip ms (seqZ next (Z.of_nat (length ms))).
Proof.
  revert next. induction ms as [ | m ms IH]; intros next; [done | ].
  rewrite length_cons, Nat2Z.inj_succ, seqZ_cons by lia.
  simpl. f_equal. rewrite IH. do 2 f_equal; lia.
Qed.

Lemma BuildReportStep_members_plain :
  BuildReportStep_members
  = (fun m => (m, None))
      <$> [NONE; ADD_COMMENTS; EDIT_DETAILS; TAKE_ACTION; COMPLETE].
Proof. reflexivity. Qed.

Lemma ordinal_declaration_index (s : BuildReportStep) :
  ordinal s = Z.of_nat (declaration_index s).
Proof. by destruct s. Qed.

Lemma ordinal_declared (s : BuildReportStep) :
  member_value s (number_members 0 BuildReportStep_members)
  = Some (ordinal s).
Proof. by destruct s. Qed.

(** C4: the five steps are numbered 0 to 4 in the order of their
    declaration, so NONE < ADD_COMMENTS < EDIT_DETAILS < TAKE_ACTION <
    COMPLETE, and of any two steps the one declared earlier has the
    strictly smaller number. *)
Theorem BuildReportStep_ordinal_order :
  ordinal NONE = 0 /\ ordinal ADD_COMMENTS = 1 /\ ordinal EDIT_DETAILS = 2 /\
  ordinal TAKE_ACTION = 3 /\ ordinal COMPLETE = 4 /\
  ordinal NONE < ordinal ADD_COMMENTS < ordinal EDIT_DETAILS /\
  ordinal EDIT_DETAILS < ordinal TAKE_ACTION < ordinal COMPLETE /\
  forall a b : BuildReportStep,
    (declaration_index a < declaration_index b)%nat <-> ordinal a < ordinal b.
Proof.
  repeat split; try reflexivity; rewrite !ordinal_declaration_index; lia.
Qed.

(** *** Templates *)

Lemma csvWellFormed_true (t : CsvFileTemplate.t) :
  csvWellFormed t = true <->
  Forall (fun row => length row = length (CsvFileTemplate.header t))
         (CsvFileTemplate.bodyRows t).
Proof.
  unfold csvWellFormed. rewrite forallb_forall, Forall_forall.
  split; intros H row Hrow.
  - apply Nat.eqb_eq, H. by apply list_elem_of_In.
  - apply Nat.eqb_eq, H. by apply list_elem_of_In.
Qed.

Lemma csvWellFormed_false (t : CsvFileTemplate.t) :
  csvWellFormed t = false <->
  Exists (fun row => length row <> length (CsvFileTemplate.header t))
         (CsvFileTemplate.bodyRows t).
Proof.
  rewrite <- not_true_iff_false, csvWellFormed_true.
  rewrite <- Exists_Forall_neg; [done | ].
  intros row.
  destruct (decide (length row = length (CsvFileTemplate.header t))); auto.
Qed.

(** C3: the check of a template succeeds exactly when every body row is as
    long as the header row and fails exactly when some body row is not; it
    accepts the template with a two-column header and three two-cell rows
    and rejects the one with a three-cell row. *)
Theorem csvWellFormed_invariant :
  (forall t : CsvFileTemplate.t,
     csvWellFormed t = true <->
     Forall (fun row => length row = length (CsvFileTemplate.header t))
            (CsvFileTemplate.bodyRows t)) /\
  (forall t : CsvFileTemplate.t,
     csvWellFormed t = false <->
     Exists (fun row => length row <> length (CsvFileTemplate.header t))
            (CsvFileTemplate.bodyRows t)) /\
  csvWellFormed csv_valid = true /\
  csvWellFormed csv_invalid = false.
Proof.
  split; [exact csvWellFormed_true | ].
  split; [exact csvWellFormed_false | ].
  split; reflexivity.
Qed.

(** *** Pagination *)

(** C7: a response without a continuation token is the final page and has
    no follow-up request; a response with a token has a follow-up request
    that carries the token as its [nextPageToken] and keeps [fromDate] and
    [toDate] (and the credentials) of the request before it. *)
Theorem getTweets_pagination {UserCredential : Type}
  (req : GetTweetsRequest.t UserCredential) (resp : GetTweetsResponse.t) :
  (GetTweetsResponse.nextPageToken resp = None <->
   isFinalPage resp = true) /\
  (GetTweetsResponse.nextPageToken resp = None <->
   followUpRequest req resp = None) /\
  (forall token : string,
     GetTweetsResponse.nextPageToken resp = Some token ->
     isFinalPage resp = false /\
     exists next,
       followUpRequest req resp = Some next /\
       GetTweetsRequest.nextPageToken next = Some token /\
       GetTweetsRequest.fromDate next = GetTweetsRequest.fromDate req /\
       GetTweetsRequest.toDate next = GetTweetsRequest.toDate req /\
       GetTweetsRequest.credentials next
       = GetTweetsRequest.credentials req).
Proof.
  unfold isFinalPage, followUpRequest.
  destruct (GetTweetsResponse.nextPageToken resp) as [token | ].
  - split; [split; discriminate | ]. split; [split; discriminate | ].
    intros ? [= <-]. split; [reflexivity | ]. eexists. by repeat split.
  - split; [done | ]. split; [done | ]. discriminate.
Qed.

Example followUpRequest_middle_page :
  followUpRequest first_request middle_page
  = Some {| GetTweetsRequest.credentials := None;
            GetTweetsRequest.nextPageToken := Some "eyJtYXhJZCI6MTJ9";
            GetTweetsRequest.fromDate := "202011010000";
            GetTweetsRequest.toDate := "202011302359" |}.
Proof. reflexivity. Qed.

Example followUpRequest_last_page :
  followUpRequest first_request last_page = None.
Proof. reflexivity. Qed.

(** *** Batch actions *)

(** The three outcomes as conditions on the fields of a response. *)
Lemma batch_outcome_cases {R : Type} `{BatchActionResponse R} (r : R) :
  (batch_outcome r = FullSuccess <->
   error r = None /\
   (failedScreennames r = None \/ failedScreennames r = Some [])) /\
  (forall names,
     batch_outcome r = PartialSuccess names <->
     error r = None /\ failedScreennames r = Some names /\ names <> []) /\
  (forall message,
     batch_outcome r = TotalFailure message <-> error r = Some message).
Proof.
  unfold batch_outcome.
  destruct (error r) as [e | ];
    [ | destruct (failedScreennames r) as [[ | n ns] | ]].
  all: repeat split; try intros ?; try split; intros; destruct_and?;
    simplify_eq; eauto; try destruct_or!; simplify_eq.
Qed.

(** C8: a block or mute response reads as exactly one of three outcomes,
    decided by its fields: full success (no error, and the list of failed
    screen names empty or absent), partial success (no error, a non-empty
    list of the screen names that failed) or total failure (the error
    set); each of the three is the reading of some response of either
    shape. *)
Theorem batch_response_three_outcomes :
  (forall (R : Type) (HR : BatchActionResponse R) (r : R),
     (batch_outcome r = FullSuccess <->
      error r = None /\
      (failedScreennames r = None \/ failedScreennames r = Some [])) /\
     (forall names,
        batch_outcome r = PartialSuccess names <->
        error r = None /\ failedScreennames r = Some names /\ names <> []) /\
     (forall message,
        batch_outcome r = TotalFailure message <-> error r = Some message)) /\
  all_outcomes_representable BlockTwitterUsersResponse.t /\
  all_outcomes_representable MuteTwitterUsersResponse.t.
Proof.
  split; [intros R HR r; apply batch_outcome_cases | ].
  split.
  - repeat split.
    + by exists {| BlockTwitterUsersResponse.error := None;
                   BlockTwitterUsersResponse.failedScreennames := None |}.
    + by exists {| BlockTwitterUsersResponse.error := None;
                   BlockTwitterUsersResponse.failedScreennames := Some [] |}.
    + intros name names.
      by exists {| BlockTwitterUsersResponse.error := None;
                   BlockTwitterUsersResponse.failedScreennames :=
                     Some (name :: names) |}.
    + intros message failed.
      by exists {| BlockTwitterUsersResponse.error := Some message;
                   BlockTwitterUsersResponse.failedScreennames := failed |}.
  - repeat split.
    + by exists {| MuteTwitterUsersResponse.error := None;
                   MuteTwitterUsersResponse.failedScreennames := None |}.
    + by exists {| MuteTwitterUsersResponse.error := None;
                   MuteTwitterUsersResponse.failedScreennames := Some [] |}.
    + intros name names.
      by exists {| MuteTwitterUsersResponse.error := None;
                   MuteTwitterUsersResponse.failedScreennames :=
                     Some (name :: names) |}.
    + intros message failed.
      by exists {| MuteTwitterUsersResponse.error := Some message;
                   MuteTwitterUsersResponse.failedScreennames := failed |}.
Qed.

End CommonTypesFacts.

(** ** Properties of the stylesheet *)

Module StylesFacts.

Import Scss Styles Samples.
Local Open Scope list_scope.

(** Including the toggle mixin replaces its two parameters. *)
Example slide_toggle_unchecked_border :
  declared ".mat-slide-toggle .mat-slide-toggle-bar" "border" css
  = [("1px solid #606266", false)].
Proof. vm_compute. reflexivity. Qed.

Example slide_toggle_checked_left :
  declared ".mat-slide-toggle.mat-checked .mat-slide-toggle-thumb-container"
    "left" css
  = [("1px", false)].
Proof. vm_compute. reflexivity. Qed.

(** [&] puts the nested selector on the parent itself. *)
Example action_button_color :
  declared "button.action-button" "background-color" css
  = [("#b23c66", false)].
Proof. vm_compute. reflexivity. Qed.

(** The buttons inside the overlay cards have a height of their own; it is
    declared on the descendant, not on the card. *)
Example onboarding_button_height :
  declared ".onboarding-filters button" "height" css = [("36px", false)].
Proof. vm_compute. reflexivity. Qed.

(** The claim C2 as stated fails: the only [!important] is not the one on
    the tooltip padding, the marked declarations are not one in number and
    one of them is not a padding. *)
Lemma important_used_once_fails :
  important_rules css <> [(tooltip_selectors, "padding", "16px")] /\
  length (important_declarations styles) <> 1%nat /\
  exists d,
    d ∈ all_declarations styles /\ important d = true /\
    property d <> "padding".
Proof.
  split; [vm_compute; discriminate | ].
  split; [vm_compute; discriminate | ].
  exists connector_transform. split; [ | split; [reflexivity | discriminate]].
  apply list_elem_of_In. vm_compute. tauto.
Qed.

(** C2, as amended: the stylesheet marks exactly two declarations
    [!important]: [transform: none] on the connector of the range slider
    and the 16px padding of the three tooltip classes; no other
    declaration carries the marker, in the source or in the generated
    CSS. *)
Theorem important_used_twice :
  important_declarations styles = [connector_transform; tooltip_padding] /\
  important_rules css
  = [ (connector_selectors, "transform", "none");
      (tooltip_selectors, "padding", "16px") ] /\
  Forall (fun d => important d = true ->
                   d = connector_transform \/ d = tooltip_padding)
         (all_declarations styles).
Proof.
  split; [vm_compute; reflexivity | ].
  split; [vm_compute; reflexivity | ].
  apply Forall_forall. intros d Hd Himp.
  assert (Hin : d ∈ important_declarations styles)
    by (by apply list_elem_of_filter).
  change (important_declarations styles)
    with [connector_transform; tooltip_padding] in Hin.
  apply elem_of_cons in Hin as [-> | Hin]; [by left | ].
  apply list_elem_of_singleton in Hin as ->. by right.
Qed.

(** C9: each of the six onboarding overlay cards declares its height once,
    with the value listed: view-settings 202px, filters 190px, pagination
    165px, recommended-reports 193px, comment-card 165px and review-report
    188px. *)
Theorem onboarding_heights :
  declared ".onboarding-view-settings" "height" css = [("202px", false)] /\
  declared ".onboarding-filters" "height" css = [("190px", false)] /\
  declared ".onboarding-pagination" "height" css = [("165px", false)] /\
  declared ".onboarding-recommended-reports" "height" css
  = [("193px", false)] /\
  declared ".onboarding-comment-card" "height" css = [("165px", false)] /\
  declared ".onboarding-review-report" "height" css = [("188px", false)].
Proof. vm_compute. repeat split. Qed.

(** *** The clip path of the slider's connector *)

Import Css.
Local Open Scope Q_scope.

Lemma noUi_connect_clip_declared :
  declared "app-toxicity-range-filter .noUi-connect" "clip-path" css
  = [(show_inset noUi_connect_clip, false)].
Proof. vm_compute. reflexivity. Qed.

(** C5: the connector's clip path is the [inset()] with 0% on top and
    bottom, 100% minus the maximum score on the right and the minimum score
    on the left, whatever percentages the two score variables are set to;
    for 20% and 80% it is [inset(0% 20% 0% 20%)]. *)
Theorem noUi_connect_clip_computed
  (env : gmap string custom_value) (min_score max_score : Q)
  (Hmin : env !! "--min-score" = Some (IsPercent min_score))
  (Hmax : env !! "--max-score" = Some (IsPercent max_score)) :
  declared "app-toxicity-range-filter .noUi-connect" "clip-path" css
  = [(show_inset noUi_connect_clip, false)] /\
  compute_inset env noUi_connect_clip
  = Some {| computed_top := of_percent 0;
            computed_right := of_percent (100 - max_score);
            computed_bottom := of_percent 0;
            computed_left := of_percent min_score |} /\
  compute_inset scores_20_80 noUi_connect_clip
  = Some {| computed_top := of_percent 0;
            computed_right := of_percent 20;
            computed_bottom := of_percent 0;
            computed_left := of_percent 20 |}.
Proof.
  split; [exact noUi_connect_clip_declared | ].
  split; [ | vm_compute; reflexivity].
  unfold compute_inset, noUi_connect_clip.
  cbn [compute inset_top inset_right inset_bottom inset_left].
  rewrite Hmin, Hmax. reflexivity.
Qed.

Lemma noUi_connect_clip_computed_witness :
  declared "app-toxicity-range-filter .noUi-connect" "clip-path" css
  = [(show_inset noUi_connect_clip, false)] /\
  compute_inset scores_20_80 noUi_connect_clip
  = Some {| computed_top := of_percent 0;
            computed_right := of_percent (100 - (80 # 1));
            computed_bottom := of_percent 0;
            computed_left := of_percent (20 # 1) |} /\
  compute_inset scores_20_80 noUi_connect_clip
  = Some {| computed_top := of_percent 0;
            computed_right := of_percent 20;
            computed_bottom := of_percent 0;
            computed_left := of_percent 20 |}.
Proof.
  apply (noUi_connect_clip_computed scores_20_80 (20 # 1) (80 # 1));
    reflexivity.
Defined.

(** Without the score variables, or with one set to something that is not
    a length or a percentage, the clip path has no computed value. *)
Example noUi_connect_clip_unset :
  compute_inset ∅ noUi_connect_clip = None.
Proof. reflexivity. Qed.

Example noUi_connect_clip_not_a_percentage :
  compute_inset (<["--min-score" := IsOther "0.2"]> scores_20_80)
    noUi_connect_clip
  = None.
Proof. reflexivity. Qed.

End StylesFacts.

(** ** [isFirebaseCredential] outside the plain case *)

Module CredentialEdgeFacts.

Import JS CommonTypes Samples.

Section Edge.

Context {W : Type}.

Implicit Types (v p : value W) (w : W).
Implicit Types (props : gmap string (slot W (value W))).
Implicit Types (proto : option (value W)).




(** X1: on [undefined] and on [null] the call throws a TypeError and
    leaves the realm as it was; on a boolean, a number or a string it
    completes with false. *)
Theorem isFirebaseCredential_not_an_object :
  (forall w,
     isFirebaseCredential (W := W) Undefined w
     = (inr (TypeError "Cannot read properties of undefined"), w)) /\
  (forall w,
     isFirebaseCredential (W := W) Null w
     = (inr (TypeError "Cannot read properties of null"), w)) /\
  (forall b w, isFirebaseCredential (W := W) (Bool b) w = (inl false, w)) /\
  (forall n w, isFirebaseCredential (W := W) (Number n) w = (inl false, w)) /\
  (forall s w, isFirebaseCredential (W := W) (Str s) w = (inl false, w)).
Proof. by repeat split. Qed.

(** X2: when [signInMethod] resolves to an accessor, the call is the
    getter followed by the comparison: an exception the getter throws
    comes out unchanged, and the realm is left as the getter left it. *)
Theorem isFirebaseCredential_getter v w (g : M W (value W))
  (Hslot : find_slot v "signInMethod" = Some (Accessor g)) :
  isFirebaseCredential v w
  = match g w with
    | (inl x, w') => (inl (strict_neq_undefined x), w')
    | (inr e, w') => (inr e, w')
    end.
Proof.
  destruct v; try discriminate Hslot.
  unfold isFirebaseCredential, bind, get. rewrite Hslot.
  by destruct (g w) as [[x | e] w'].
Qed.




End Edge.

Lemma isFirebaseCredential_getter_witness :
  isFirebaseCredential counting_credential 4 = (inl true, 5) /\
  isFirebaseCredential throwing_credential 4 = (inr (Thrown "no"), 4).
Proof.
  split.
  - exact (isFirebaseCredential_getter counting_credential 4
             (fun w : world => (inl (Str "twitter.com"), S w)) eq_refl).
  - exact (isFirebaseCredential_getter throwing_credential 4
             (throw (Thrown "no")) eq_refl).
Defined.




End CredentialEdgeFacts.

(** ** The reverse mapping of [BuildReportStep] *)

Module EnumObjectFacts.

Import CommonTypes EnumObject.
Local Open Scope Z_scope.

Lemma reverse_mapping_snoc (vs : list (string * Z)) (name : string) (n : Z) :
  reverse_mapping (vs ++ [(name, n)]) = <[n := name]> (reverse_mapping vs).
Proof. unfold reverse_mapping. by rewrite foldl_snoc. Qed.

(** Where no two members have the same number, a number maps back to a
    name exactly when that member has that number. *)
Lemma reverse_mapping_lookup (vs : list (string * Z)) (name : string) (n : Z) :
  NoDup vs.*2 ->
  reverse_mapping vs !! n = Some name <-> (name, n) ∈ vs.
Proof.
  induction vs as [ | [name' n'] vs IH] using rev_ind; intros Hnodup.
  - unfold reverse_mapping. simpl. rewrite lookup_empty, elem_of_nil.
    split; [discriminate | contradiction].
  - rewrite fmap_app in Hnodup. apply NoDup_app in Hnodup as (Hvs & Hn' & _).
    rewrite reverse_mapping_snoc, elem_of_app, list_elem_of_singleton.
    destruct (decide (n = n')) as [-> | Hne].
    + rewrite lookup_insert_eq. split.
      * intros [= ->]. by right.
      * intros [Hin | [= -> ]]; [ | done]. exfalso.
        apply (Hn' n'); [ | by apply list_elem_of_singleton].
        by apply (list_elem_of_fmap_2 snd _ (name, n')).
    + rewrite lookup_insert_ne by done. rewrite (IH Hvs).
      split; [by left | ]. intros [Hin | [= _ ->]]; [done | contradiction].
Qed.

Lemma BuildReportStep_numbers_list :
  BuildReportStep_numbers
  = [ ("NONE", 0); ("ADD_COMMENTS", 1); ("EDIT_DETAILS", 2);
      ("TAKE_ACTION", 3); ("COMPLETE", 4) ].
Proof. reflexivity. Qed.

Lemma BuildReportStep_at_member (n : Z) (name : string) :
  BuildReportStep_at n = Some name <->
  exists s, ordinal s = n /\ BuildReportStep_name s = name.
Proof.
  unfold BuildReportStep_at. rewrite reverse_mapping_lookup.
  - rewrite BuildReportStep_numbers_list. split.
    + intros Hin.
      repeat (apply elem_of_cons in Hin as [[= -> ->] | Hin];
              [first [ by exists NONE | by exists ADD_COMMENTS
                     | by exists EDIT_DETAILS | by exists TAKE_ACTION
                     | by exists COMPLETE ] | ]).
      by apply elem_of_nil in Hin.
    + intros (s & <- & <-).
      destruct s; apply list_elem_of_In; vm_compute; tauto.
  - rewrite BuildReportStep_numbers_list. apply (bool_decide_unpack _).
    by vm_compute.
Qed.

(** X6: the number of a step maps back to the step's name, a number maps
    to a name only if it is the number of the step with that name, the
    numbers below 0 and above 4 map to nothing, and no two steps share a
    name. *)
Theorem BuildReportStep_reverse_mapping :
  (forall s, BuildReportStep_at (ordinal s) = Some (BuildReportStep_name s)) /\
  (forall n name,
     BuildReportStep_at n = Some name <->
     exists s, ordinal s = n /\ BuildReportStep_name s = name) /\
  (forall n, n < 0 \/ 4 < n -> BuildReportStep_at n = None) /\
  (forall s1 s2,
     BuildReportStep_name s1 = BuildReportStep_name s2 -> s1 = s2).
Proof.
  split; [intros s; apply BuildReportStep_at_member; eauto | ].
  split; [exact BuildReportStep_at_member | ].
  split.
  - intros n Hn. destruct (BuildReportStep_at n) as [name | ] eqn:E; [ | done].
    apply BuildReportStep_at_member in E as (s & <- & _).
    exfalso. destruct s; vm_compute in Hn; destruct Hn; discriminate.
  - intros s1 s2 H. by destruct s1, s2.
Qed.

End EnumObjectFacts.

(** ** Invariants of the generated CSS *)

Module StyleInvariants.

Import Scss Styles StyleQueries.
Local Open Scope list_scope.







(** X9: each of the six onboarding cards declares its height and then
    exactly what the exit dialog declares: the cards differ from one
    another in height only. *)
Theorem onboarding_cards_differ_in_height :
  Forall
    (fun card =>
       exists height,
         declarations_of card css
         = ("height", height, false) :: declarations_of ".exit-dialog" css)
    onboarding_cards.
Proof.
  repeat constructor; eexists; vm_compute; reflexivity.
Qed.

End StyleInvariants.

(** ** The band the connector's clip path leaves visible *)

Module ClipFacts.

Import Styles StyleQueries Samples Css.
Local Open Scope Q_scope.

Lemma compute_inset_noUi_connect_clip (env : gmap string custom_value) :
  compute_inset env noUi_connect_clip
  = match compute env (CustomProperty "--max-score"),
          compute env (CustomProperty "--min-score") with
    | Some mx, Some mn =>
        Some {| computed_top := of_percent 0;
                computed_right :=
                  {| percent := 100 - percent mx; pixels := 0 - pixels mx |};
                computed_bottom := of_percent 0;
                computed_left := mn |}
    | _, _ => None
    end.
Proof.
  unfold compute_inset, noUi_connect_clip.
  cbn [compute inset_top inset_right inset_bottom inset_left].
  destruct (env !! "--max-score") as [[q | q | s] | ];
    destruct (env !! "--min-score") as [[q' | q' | s'] | ]; reflexivity.
Qed.

(** X10: with the two score variables set to percentages, the band the
    clip path leaves visible is as wide as the selected range, maximum
    minus minimum; the two insets leave a band at all exactly when the
    minimum is not above the maximum, and neither inset is negative
    exactly when the scores lie between 0% and 100%. *)
Theorem noUi_connect_clip_band
  (env : gmap string custom_value) (min_score max_score : Q)
  (Hmin : env !! "--min-score" = Some (IsPercent min_score))
  (Hmax : env !! "--max-score" = Some (IsPercent max_score)) :
  exists i,
    compute_inset env noUi_connect_clip = Some i /\
    100 - percent (computed_left i) - percent (computed_right i)
    == max_score - min_score /\
    (percent (computed_left i) + percent (computed_right i) <= 100 <->
     min_score <= max_score) /\
    (0 <= percent (computed_left i) <-> 0 <= min_score) /\
    (0 <= percent (computed_right i) <-> max_score <= 100).
Proof.
  rewrite compute_inset_noUi_connect_clip.
  cbn [compute]. rewrite Hmin, Hmax.
  eexists. split; [reflexivity | ].
  cbn [percent computed_left computed_right of_percent].
  repeat split; intros; lra.
Qed.

Lemma noUi_connect_clip_band_witness :
  exists i,
    compute_inset scores_20_80 noUi_connect_clip = Some i /\
    100 - percent (computed_left i) - percent (computed_right i)
    == (80 # 1) - (20 # 1) /\
    (percent (computed_left i) + percent (computed_right i) <= 100 <->
     (20 # 1) <= (80 # 1)) /\
    (0 <= percent (computed_left i) <-> 0 <= (20 # 1)) /\
    (0 <= percent (computed_right i) <-> (80 # 1) <= 100).
Proof.
  apply (noUi_connect_clip_band scores_20_80 (20 # 1) (80 # 1)); reflexivity.
Defined.


End ClipFacts.
